(** * MFR education automation: the competency-mastery agents

    Shallow embedding of the three Python agents that carry the logic of the
    repository:

    - [collective_validation_agent.py]  (class CollectiveValidationAgent),
    - [academic_compliance_agent.py]    (class AcademicComplianceAgent),
    - [gemini_compliance_agent.py]      (class GeminiComplianceAgent).

    Python dictionaries with string keys are [gmap string _]; Python floats
    are IEEE-754 binary64 values ([spec_float] at precision 53); a call that
    may raise returns a [PyResult]; the methods that talk to an external
    service run in a state monad over the agent object, whose client keeps
    the list of the requests it was sent. *)

From Stdlib Require Import ZArith Lia.
From Stdlib Require Import Floats.SpecFloat.
From stdpp Require Import gmap strings list.

Local Open Scope string_scope.
Local Open Scope list_scope.

(** ** Strings and dictionaries as Python uses them *)

(** The line feed of a triple-quoted literal. *)
Definition nl : string := String (Ascii.ascii_of_nat 10) EmptyString.

(** [sep.join(items)] *)
Fixpoint join (sep : string) (items : list string) : string :=
  match items with
  | [] => EmptyString
  | [x] => x
  | x :: rest => x +:+ sep +:+ join sep rest
  end.

(** [d.get(key, default)] *)
Definition dict_get (d : gmap string string) (key default : string) : string :=
  match d !! key with
  | Some v => v
  | None => default
  end.

(** [needle in haystack] as a proposition. *)
Definition occurs_in (needle haystack : string) : Prop :=
  exists before after, haystack = before +:+ needle +:+ after.

(** ** Results of calls that may raise *)

Inductive PyResult (A : Type) : Type :=
  | Return (a : A)
  | Raise (exc : string).
Arguments Return {A} a.
Arguments Raise {A} exc.

Definition py_bind {A B} (r : PyResult A) (k : A -> PyResult B) : PyResult B :=
  match r with
  | Return a => k a
  | Raise exc => Raise exc
  end.

Definition returns {A} (r : PyResult A) : Prop := exists a, r = Return a.

(** ** State passing for methods of an agent object *)

Definition State (S A : Type) : Type := S -> A * S.

Definition st_ret {S A} (a : A) : State S A := fun s => (a, s).

Definition st_bind {S A B} (m : State S A) (k : A -> State S B) : State S B :=
  fun s => let (a, s') := m s in k a s'.

Notation "'call' x <- m ; k" := (st_bind m (fun x => k))
  (at level 10, x name, m at level 100, k at level 200, only parsing).

(** ** Python floats *)

Module PyFloat.

Definition prec : Z := 53.
Definition emax : Z := 1024.

(** [float(n)] for a non-negative integer, rounded to nearest even. *)
Definition of_nat (n : nat) : spec_float :=
  binary_normalize prec emax (Z.of_nat n) 0 false.

(** The integer [0], where Python compares it with a float. *)
Definition zero : spec_float := S754_zero false.

(** [a / b] on two non-negative integers: true division.  Both operands
    are below 2^53 for every list that fits in memory, so the conversions
    are exact and the quotient is rounded once. *)
Definition truediv (a b : nat) : PyResult spec_float :=
  match b with
  | O => Raise "ZeroDivisionError"
  | S _ => Return (SFdiv prec emax (of_nat a) (of_nat b))
  end.

(** [x >= y]: false as soon as one side is NaN. *)
Definition ge (x y : spec_float) : bool := SFleb y x.

(** The literal [0.9], that is 0x1.ccccccccccccdp-1. *)
Definition lit_0_9 : spec_float := S754_finite false 8106479329266893 (-53).

(** The literal [0.8], that is 0x1.999999999999ap-1. *)
Definition lit_0_8 : spec_float := S754_finite false 7205759403792794 (-53).

End PyFloat.

(** ** The external content-generation services

    A service answers a request with a text or fails with an exception whose
    [str()] is kept.  Its answer may depend on everything it was sent before,
    so nothing is assumed about the vendor's model.  [sent] is the list of
    the requests dispatched so far, oldest first. *)

Inductive Completion : Type :=
  | Content (text : string)
  | Failed (e : string).

Record Service (Req : Type) : Type := {
  respond : list Req -> Req -> Completion;
  sent : list Req
}.
Arguments respond {Req} _ _ _.
Arguments sent {Req} _.

Definition dispatch {Req} (req : Req) : State (Service Req) Completion :=
  fun svc =>
    (respond svc (sent svc) req,
     {| respond := respond svc; sent := sent svc ++ [req] |}).

(** [client.chat.completions.create(messages=[...], model=...)] followed by
    [.choices[0].message.content]. *)
Record Message : Type := { role : string; content : string }.
Record ChatRequest : Type := { messages : list Message; model : string }.

Definition OpenAI : Type := Service ChatRequest.

Definition chat_request (system_content user_content model_name : string) : ChatRequest :=
  {| messages := [ {| role := "system"; content := system_content |};
                   {| role := "user"; content := user_content |} ];
     model := model_name |}.

(** ** collective_validation_agent.py *)

Module CollectiveValidation.

(** The object built by [__init__]; [teachers_config] is whatever the YAML
    file held and is read by no method. *)
Record Agent (Config : Type) : Type := {
  client : OpenAI;
  teachers_config : Config
}.
Arguments client {Config} _.
Arguments teachers_config {Config} _.

Definition with_client {Config A} (m : State OpenAI A) : State (Agent Config) A :=
  fun self =>
    let (a, c) := m (client self) in
    (a, {| client := c; teachers_config := teachers_config self |}).

(** The label the source compares with. *)
Definition mastered_label : string := "maîtrisé".

(** [student.get(competence_id) == "maîtrisé"] *)
Definition has_mastered (competence_id : string) (student : gmap string string) : bool :=
  bool_decide (student !! competence_id = Some mastered_label).

(** [sum(1 for student in student_progress_data if ...)] *)
Fixpoint mastery_count (student_progress_data : list (gmap string string))
    (competence_id : string) : nat :=
  match student_progress_data with
  | [] => 0
  | student :: rest =>
      if has_mastered competence_id student
      then 1 + mastery_count rest competence_id
      else mastery_count rest competence_id
  end.

(** [mastery_count / len(student_progress_data) if student_progress_data else 0] *)
Definition mastery_ratio (student_progress_data : list (gmap string string))
    (competence_id : string) : PyResult spec_float :=
  match student_progress_data with
  | [] => Return PyFloat.zero
  | _ :: _ =>
      PyFloat.truediv (mastery_count student_progress_data competence_id)
                      (length student_progress_data)
  end.

(** [return mastery_ratio >= threshold] *)
Definition check_collective_mastery (student_progress_data : list (gmap string string))
    (competence_id : string) (threshold : spec_float) : PyResult bool :=
  py_bind (mastery_ratio student_progress_data competence_id)
          (fun ratio => Return (PyFloat.ge ratio threshold)).

Definition assessment_prompt (competence_id student_level : string) : string :=
  nl
  +:+ "        En tant qu'ingénieur pédagogique, créez un devoir de validation collective pour la compétence avec l'ID '"
  +:+ competence_id
  +:+ "'."
  +:+ nl
  +:+ "        Le niveau général de la classe est '"
  +:+ student_level
  +:+ "'."
  +:+ nl
  +:+ "        Le devoir doit être concis, pertinent et permettre de valider rapidement la maîtrise de la compétence par l'ensemble de la classe."
  +:+ nl
  +:+ "        Il peut prendre la forme d'un QCM, d'un problème court ou d'une étude de cas simple."
  +:+ nl
  +:+ "        ".

Definition assessment_request (competence_id student_level : string) : ChatRequest :=
  chat_request
    "Vous êtes un ingénieur pédagogique spécialisé dans la création d'évaluations collectives."
    (assessment_prompt competence_id student_level)
    "gpt-4".

Definition assessment_result (answer : Completion) : gmap string string :=
  match answer with
  | Content response => {[ "status" := "success"; "assessment" := response ]}
  | Failed e =>
      {[ "status" := "error";
         "message" := "Erreur lors de la génération de l'évaluation collective : " +:+ e ]}
  end.

Definition generate_collective_assessment {Config} (competence_id student_level : string)
    : State (Agent Config) (gmap string string) :=
  call answer <- with_client (dispatch (assessment_request competence_id student_level));
  st_ret (assessment_result answer).

(** The sequence of the script at the end of the file, its constants taken
    as arguments: the check, then the assessment only [if is_mastered].
    The value is the assessment when one was generated. *)
Definition main {Config} (progress_data : list (gmap string string))
    (competence_id : string) (threshold : spec_float) (student_level : string)
    : State (Agent Config) (PyResult (option (gmap string string))) :=
  fun agent =>
    match check_collective_mastery progress_data competence_id threshold with
    | Raise exc => (Raise exc, agent)
    | Return is_mastered =>
        if is_mastered
        then
          let (assessment, agent') :=
            generate_collective_assessment competence_id student_level agent in
          (Return (Some assessment), agent')
        else (Return None, agent)
    end.

(** The roster of that script: nine of ten mastered. *)
Definition maitrise : gmap string string := {[ "D1.3" := "maîtrisé" ]}.
Definition en_cours : gmap string string := {[ "D1.3" := "en cours" ]}.
Definition progress_data : list (gmap string string) :=
  [maitrise; maitrise; en_cours; maitrise; maitrise;
   maitrise; maitrise; maitrise; maitrise; maitrise].

End CollectiveValidation.

(** ** The competency framework document

    The shape the agent indexes into:
    [referentiels: [ {competences: [ {id, name, description, indicateurs} ]} ]]. *)

Module Framework.

Record Competence : Type := {
  id : string;
  name : string;
  description : string;
  indicateurs : list string
}.

Record Referentiel : Type := { competences : list Competence }.

Record Document : Type := { referentiels : list Referentiel }.

(** The competencies in document order, as the nested generator
    [for r in ... for c in r["competences"]] walks them. *)
Definition all_competences (doc : Document) : list Competence :=
  concat (map competences (referentiels doc)).

(** Two competencies of the document share an id. *)
Definition has_duplicate_id (doc : Document) : bool :=
  bool_decide (~ NoDup (map id (all_competences doc))).

(** Some competency of the document has no indicator. *)
Definition has_empty_indicateurs (doc : Document) : bool :=
  existsb (fun c => bool_decide (indicateurs c = [])) (all_competences doc).

End Framework.

(** ** academic_compliance_agent.py *)

Module AcademicCompliance.
Import Framework.

Record Agent : Type := {
  client : OpenAI;
  referentiels : Document
}.

Definition with_client {A} (m : State OpenAI A) : State Agent A :=
  fun self =>
    let (a, c) := m (client self) in
    (a, {| client := c; referentiels := referentiels self |}).

(** [_load_referentiels]: [open(path)] then [yaml.safe_load(file)].  The
    file system maps a path to the document its YAML text parses to; a
    missing file makes [open] raise.  Nothing else is looked at. *)
Definition _load_referentiels (fs : gmap string Document) (path : string)
    : PyResult Document :=
  match fs !! path with
  | Some doc => Return doc
  | None => Raise "FileNotFoundError"
  end.

(** [__init__] *)
Definition init (fs : gmap string Document) (api : OpenAI) (referentiels_path : string)
    : PyResult Agent :=
  py_bind (_load_referentiels fs referentiels_path)
          (fun doc => Return {| client := api; referentiels := doc |}).

(** [next((c for r in self.referentiels["referentiels"]
             for c in r["competences"] if c["id"] == competence_id), None)] *)
Fixpoint next_in (cs : list Competence) (competence_id : string) : option Competence :=
  match cs with
  | [] => None
  | c :: rest =>
      if bool_decide (id c = competence_id) then Some c else next_in rest competence_id
  end.

Fixpoint next_competence (rs : list Referentiel) (competence_id : string)
    : option Competence :=
  match rs with
  | [] => None
  | r :: rest =>
      match next_in (competences r) competence_id with
      | Some c => Some c
      | None => next_competence rest competence_id
      end
  end.

Definition find (self : Agent) (competence_id : string) : option Competence :=
  next_competence (Framework.referentiels (referentiels self)) competence_id.

Definition error_result (message : string) : gmap string string :=
  {[ "status" := "error"; "message" := message ]}.

Definition success_result (key response : string) : gmap string string :=
  {[ "status" := "success"; key := response ]}.

Definition compliance_prompt (competence : Competence) (content_to_check : string)
    : string :=
  nl
  +:+ "        En tant qu'expert en conformité académique, analysez le contenu pédagogique suivant et déterminez s'il est conforme aux indicateurs de la compétence '"
  +:+ (name competence)
  +:+ "' ("
  +:+ (description competence)
  +:+ ")."
  +:+ nl
  +:+ "        Indicateurs de la compétence:"
  +:+ nl
  +:+ "        "
  +:+ (join "- " (indicateurs competence))
  +:+ nl
  +:+ nl
  +:+ "        Contenu pédagogique à vérifier:"
  +:+ nl
  +:+ "        "
  +:+ content_to_check
  +:+ nl
  +:+ nl
  +:+ "        Fournissez une évaluation claire (Conforme, Partiellement Conforme, Non Conforme) et des suggestions spécifiques pour améliorer la conformité si nécessaire."
  +:+ nl
  +:+ "        ".

Definition check_compliance (content_to_check competence_id : string)
    : State Agent (gmap string string) :=
  fun self =>
    match find self competence_id with
    | None =>
        (error_result ("Compétence " +:+ competence_id
                       +:+ " non trouvée dans les référentiels."), self)
    | Some competence =>
        (call answer <- with_client (dispatch (chat_request
             "Vous êtes un assistant expert en conformité académique."
             (compliance_prompt competence content_to_check)
             "gpt-4"));
         st_ret match answer with
                | Content response => success_result "evaluation" response
                | Failed e =>
                    error_result ("Erreur lors de la vérification de conformité : " +:+ e)
                end) self
    end.

Definition remediation_prompt (student_data : gmap string string)
    (competence : Competence) (identified_gaps : string) : string :=
  nl
  +:+ "        Générez un plan de remédiation personnalisé pour l'élève "
  +:+ (dict_get student_data "name" "cet élève")
  +:+ ", qui a des lacunes identifiées suivantes pour la compétence '"
  +:+ (name competence)
  +:+ "' ("
  +:+ (description competence)
  +:+ ") :"
  +:+ nl
  +:+ "        Lacunes: "
  +:+ identified_gaps
  +:+ nl
  +:+ nl
  +:+ "        Le plan doit inclure des exercices spécifiques, des ressources et des étapes claires pour améliorer la maîtrise de cette compétence."
  +:+ nl
  +:+ "        ".

Definition generate_remediation_plan (student_data : gmap string string)
    (competence_id identified_gaps : string) : State Agent (gmap string string) :=
  fun self =>
    match find self competence_id with
    | None =>
        (error_result ("Compétence " +:+ competence_id +:+ " non trouvée."), self)
    | Some competence =>
        (call answer <- with_client (dispatch (chat_request
             "Vous êtes un tuteur IA expert en pédagogie."
             (remediation_prompt student_data competence identified_gaps)
             "gpt-4"));
         st_ret match answer with
                | Content response => success_result "plan" response
                | Failed e =>
                    error_result
                      ("Erreur lors de la génération du plan de remédiation : " +:+ e)
                end) self
    end.

Definition enrichment_prompt (student_data : gmap string string)
    (competence : Competence) : string :=
  nl
  +:+ "        Générez un plan d'approfondissement pour l'élève "
  +:+ (dict_get student_data "name" "cet élève")
  +:+ ", qui a démontré une excellente maîtrise de la compétence '"
  +:+ (name competence)
  +:+ "' ("
  +:+ (description competence)
  +:+ ")."
  +:+ nl
  +:+ "        Le plan doit inclure des projets avancés, des lectures complémentaires ou des défis créatifs pour stimuler son intérêt et étendre ses connaissances."
  +:+ nl
  +:+ "        ".

Definition generate_enrichment_plan (student_data : gmap string string)
    (competence_id : string) : State Agent (gmap string string) :=
  fun self =>
    match find self competence_id with
    | None =>
        (error_result ("Compétence " +:+ competence_id +:+ " non trouvée."), self)
    | Some competence =>
        (call answer <- with_client (dispatch (chat_request
             "Vous êtes un tuteur IA expert en pédagogie et en développement de talents."
             (enrichment_prompt student_data competence)
             "gpt-4"));
         st_ret match answer with
                | Content response => success_result "plan" response
                | Failed e =>
                    error_result
                      ("Erreur lors de la génération du plan d'approfondissement : " +:+ e)
                end) self
    end.

(** The public methods, as data, and a run of several calls in a row. *)
Inductive Call : Type :=
  | CheckCompliance (content_to_check competence_id : string)
  | GenerateRemediationPlan (student_data : gmap string string)
      (competence_id identified_gaps : string)
  | GenerateEnrichmentPlan (student_data : gmap string string) (competence_id : string).

Definition perform (c : Call) : State Agent (gmap string string) :=
  match c with
  | CheckCompliance content_to_check competence_id =>
      check_compliance content_to_check competence_id
  | GenerateRemediationPlan student_data competence_id identified_gaps =>
      generate_remediation_plan student_data competence_id identified_gaps
  | GenerateEnrichmentPlan student_data competence_id =>
      generate_enrichment_plan student_data competence_id
  end.

Fixpoint perform_all (cs : list Call) : State Agent (list (gmap string string)) :=
  match cs with
  | [] => st_ret []
  | c :: rest =>
      call r <- perform c;
      call rs <- perform_all rest;
      st_ret (r :: rs)
  end.

End AcademicCompliance.

(** ** gemini_compliance_agent.py *)

Module GeminiCompliance.

(** [genai.GenerativeModel("gemini-pro")]: [generate_content(prompt)] then
    [.text]. *)
Definition GenerativeModel : Type := Service string.

Record Agent : Type := { model : GenerativeModel }.

Definition with_model {A} (m : State GenerativeModel A) : State Agent A :=
  fun self => let (a, g) := m (model self) in (a, {| model := g |}).

Definition compliance_prompt (system_status_report : string) : string :=
  nl
  +:+ "        En tant qu'expert en conformité des systèmes IA, analysez le rapport de statut du système suivant :"
  +:+ nl
  +:+ "        "
  +:+ system_status_report
  +:+ nl
  +:+ nl
  +:+ "        Identifiez les éventuels problèmes de conformité, les incohérences ou les risques potentiels."
  +:+ nl
  +:+ "        Fournissez une évaluation globale de la conformité du système et des recommandations spécifiques pour améliorer sa robustesse et sa fiabilité."
  +:+ nl
  +:+ "        ".

Definition verify_system_compliance (system_status_report : string)
    : State Agent (gmap string string) :=
  call answer <- with_model (dispatch (compliance_prompt system_status_report));
  st_ret match answer with
         | Content text => {[ "status" := "success"; "evaluation" := text ]}
         | Failed e =>
             {[ "status" := "error";
                "message" :=
                  "Erreur lors de la vérification de conformité du système : " +:+ e ]}
         end.

Definition workflow_prompt (workflow_description current_state : string) : string :=
  nl
  +:+ "        En tant qu'orchestrateur de workflow IA, analysez la description du workflow suivante :"
  +:+ nl
  +:+ "        "
  +:+ workflow_description
  +:+ nl
  +:+ nl
  +:+ "        L'état actuel du workflow est :"
  +:+ nl
  +:+ "        "
  +:+ current_state
  +:+ nl
  +:+ nl
  +:+ "        Déterminez la prochaine étape logique à exécuter, en tenant compte des dépendances et des conditions."
  +:+ nl
  +:+ "        ".

Definition workflow_result (answer : Completion) : gmap string string :=
  match answer with
  | Content text => {[ "status" := "success"; "next_steps" := text ]}
  | Failed e =>
      {[ "status" := "error";
         "message" := "Erreur lors de l'orchestration du workflow : " +:+ e ]}
  end.

Definition orchestrate_workflow (workflow_description current_state : string)
    : State Agent (gmap string string) :=
  call answer <- with_model (dispatch (workflow_prompt workflow_description current_state));
  st_ret (workflow_result answer).

End GeminiCompliance.

(** ** The stage-sequencing rule, as the specification words it

    Not code of the repository: the rule [orchestrate_workflow] is compared
    with.  The completed stage is looked up in the declared sequence by exact
    match; its successor is the next stage, the terminal state after the last
    one, and an unmatched description is signalled. *)

Module StageRule.

Inductive Decision : Type :=
  | NextStage (stage : string)
  | Terminal
  | UnrecognizedStage.

Fixpoint next_stage (stages : list string) (completed : string) : Decision :=
  match stages with
  | [] => UnrecognizedStage
  | s :: rest =>
      if bool_decide (s = completed)
      then match rest with
           | [] => Terminal
           | following :: _ => NextStage following
           end
      else next_stage rest completed
  end.

End StageRule.

(** ** Sample data *)

Module Samples.
Import Framework.

Definition referentiels_path : string := "data-schemas/referentiels.yaml".

Definition d13 : Competence :=
  {| id := "D1.3";
     name := "Théorème de Pythagore";
     description := "Calculer une longueur dans un triangle rectangle";
     indicateurs := ["Identifie l'hypoténuse"; "Applique la relation"] |}.

(** Same id as [d13], declared further down the document. *)
Definition d13_again : Competence :=
  {| id := "D1.3";
     name := "Réciproque de Pythagore";
     description := "Reconnaître un triangle rectangle";
     indicateurs := ["Compare les carrés"] |}.

Definition d21_bare : Competence :=
  {| id := "D2.1"; name := "Proportionnalité"; description := "À compléter";
     indicateurs := [] |}.

Definition d21 : Competence :=
  {| id := "D2.1"; name := "Proportionnalité";
     description := "Reconnaître une situation de proportionnalité";
     indicateurs := ["Calcule une quatrième proportionnelle"] |}.

Definition sound_doc : Document :=
  {| referentiels := [ {| competences := [d13] |}; {| competences := [d21] |} ] |}.

Definition flawed_doc : Document :=
  {| referentiels := [ {| competences := [d13] |};
                       {| competences := [d21_bare; d13_again] |} ] |}.

(** A service that answers every request with the same text. *)
Definition constant_service {Req} (text : string) : Service Req :=
  {| respond := fun _ _ => Content text; sent := [] |}.

Definition sound_agent : AcademicCompliance.Agent :=
  {| AcademicCompliance.client := constant_service "Conforme";
     AcademicCompliance.referentiels := sound_doc |}.

Definition flawed_agent : AcademicCompliance.Agent :=
  {| AcademicCompliance.client := constant_service "Conforme";
     AcademicCompliance.referentiels := flawed_doc |}.

Definition alice : gmap string string := {[ "name" := "Alice"; "level" := "débutant" ]}.

Definition class_agent : CollectiveValidation.Agent unit :=
  {| CollectiveValidation.client := constant_service "QCM";
     CollectiveValidation.teachers_config := tt |}.

(** Eight of ten mastered: the roster of the script with one more student
    still in progress. *)
Definition eight_of_ten : list (gmap string string) :=
  CollectiveValidation.en_cours :: tail CollectiveValidation.progress_data.

Definition none_of_one : list (gmap string string) := [CollectiveValidation.en_cours].

Definition gemini_agent : GeminiCompliance.Agent :=
  {| GeminiCompliance.model := constant_service "C" |}.

End Samples.

(** ** tools/file_manager.py *)

From Stdlib Require Import Strings.Ascii.

Module FileManager.

(** An exception raised by the operating system: whether [except
    FileNotFoundError] catches it, and its [str()]. *)
Record OSError : Type := { is_file_not_found : bool; strerror : string }.

Inductive Attempt (A : Type) : Type :=
  | Success (a : A)
  | Failure (e : OSError).
Arguments Success {A} a.
Arguments Failure {A} e.

(** The calls the class makes to the operating system, over whatever state
    the file system has.  Nothing is assumed about their behaviour: each may
    succeed or raise, and change the state either way.

    - [makedirs name] is [os.makedirs(name, exist_ok=True)];
    - [read_text path] is [open(path, "r", encoding="utf-8")] and [f.read()];
    - [write_text path content] is [open(path, "w", encoding="utf-8")] and
      [f.write(content)];
    - [append_text path content] is the same with mode ["a"]. *)
Record OS (World : Type) : Type := {
  makedirs : string -> State World (Attempt unit);
  read_text : string -> State World (Attempt string);
  write_text : string -> string -> State World (Attempt unit);
  append_text : string -> string -> State World (Attempt unit)
}.
Arguments makedirs {World} _ _ _.
Arguments read_text {World} _ _ _.
Arguments write_text {World} _ _ _ _.
Arguments append_text {World} _ _ _ _.

Definition is_sep (c : Ascii.ascii) : bool := bool_decide (c = "/"%char).

Fixpoint drop_while (f : Ascii.ascii -> bool) (l : list Ascii.ascii) : list Ascii.ascii :=
  match l with
  | [] => []
  | c :: rest => if f c then drop_while f rest else l
  end.

(** [p[:p.rfind("/") + 1]] *)
Definition through_last_sep (p : list Ascii.ascii) : list Ascii.ascii :=
  rev (drop_while (fun c => negb (is_sep c)) (rev p)).

(** [head.rstrip("/")] *)
Definition rstrip_sep (head : list Ascii.ascii) : list Ascii.ascii :=
  rev (drop_while is_sep (rev head)).

(** [os.path.dirname(p)] of posixpath: the part through the last slash,
    without its trailing slashes unless it is made of slashes only. *)
Definition dirname (p : string) : string :=
  let head := through_last_sep (String.list_ascii_of_string p) in
  String.string_of_list_ascii (if forallb is_sep head then head else rstrip_sep head).

Definition read_file {World} (os : OS World) (file_path : string) : State World string :=
  call r <- read_text os file_path;
  st_ret match r with
         | Success text => text
         | Failure e =>
             if is_file_not_found e
             then "Erreur: Le fichier " +:+ file_path +:+ " n'a pas été trouvé."
             else "Erreur lors de la lecture du fichier " +:+ file_path +:+ ": "
                  +:+ strerror e
         end.

Definition write_error (file_path : string) (e : OSError) : string :=
  "Erreur lors de l'écriture dans le fichier " +:+ file_path +:+ ": " +:+ strerror e.

Definition write_file {World} (os : OS World) (file_path content : string)
    : State World string :=
  call made <- makedirs os (dirname file_path);
  match made with
  | Failure e => st_ret (write_error file_path e)
  | Success _ =>
      call written <- write_text os file_path content;
      st_ret match written with
             | Success _ => "Contenu écrit avec succès dans " +:+ file_path +:+ "."
             | Failure e => write_error file_path e
             end
  end.

Definition append_error (file_path : string) (e : OSError) : string :=
  "Erreur lors de l'ajout au fichier " +:+ file_path +:+ ": " +:+ strerror e.

Definition append_to_file {World} (os : OS World) (file_path content : string)
    : State World string :=
  call made <- makedirs os (dirname file_path);
  match made with
  | Failure e => st_ret (append_error file_path e)
  | Success _ =>
      call written <- append_text os file_path content;
      st_ret match written with
             | Success _ => "Contenu ajouté avec succès à " +:+ file_path +:+ "."
             | Failure e => append_error file_path e
             end
  end.

End FileManager.

(** ** Helpers to speak about sequences of calls *)

Module Calls.
Import AcademicCompliance.

(** The competency a call asks about. *)
Definition competence_id_of (c : Call) : string :=
  match c with
  | CheckCompliance _ competence_id => competence_id
  | GenerateRemediationPlan _ competence_id _ => competence_id
  | GenerateEnrichmentPlan _ competence_id => competence_id
  end.

(** Whether the agent's framework holds that competency. *)
Definition resolves (self : Agent) (c : Call) : bool :=
  bool_decide (is_Some (find self (competence_id_of c))).

(** The shape every chat request of the agents has. *)
Definition well_formed (r : ChatRequest) : Prop :=
  model r = "gpt-4" /\ map role (messages r) = ["system"; "user"].

End Calls.

(** ** More sample data *)

Module MoreSamples.
Import FileManager.

(** A file system of plain files in one directory, enough to run the file
    manager: [makedirs] of the empty path raises as the interpreter's does,
    reading a missing file raises [FileNotFoundError]. *)
Definition flat_os : OS (gmap string string) :=
  {| makedirs := fun name files =>
       if bool_decide (name = "")
       then (Failure {| is_file_not_found := true;
                        strerror := "[Errno 2] No such file or directory: ''" |}, files)
       else (Success tt, files);
     read_text := fun path files =>
       match files !! path with
       | Some text => (Success text, files)
       | None => (Failure {| is_file_not_found := true;
                             strerror := "[Errno 2] No such file or directory" |}, files)
       end;
     write_text := fun path text files => (Success tt, <[ path := text ]> files);
     append_text := fun path text files =>
       (Success tt, <[ path := dict_get files path "" +:+ text ]> files) |}.

Definition bob : gmap string string := {[ "level" := "moyen" ]}.

Definition calls : list AcademicCompliance.Call :=
  [ AcademicCompliance.CheckCompliance "Le théorème de Pythagore" "D1.3";
    AcademicCompliance.GenerateRemediationPlan Samples.alice "X9.9" "lacunes";
    AcademicCompliance.GenerateEnrichmentPlan bob "D2.1" ].

End MoreSamples.

(** * Properties *)

(** ** Substrings *)

Section Substrings.

Lemma append_assoc (a b c : string) : (a +:+ b) +:+ c = a +:+ b +:+ c.
Proof.
  induction a as [|ch a IH]; [reflexivity|].
  change (String ch ((a +:+ b) +:+ c) = String ch (a +:+ b +:+ c)).
  now rewrite IH.
Qed.

Lemma occurs_in_here (needle rest : string) : occurs_in needle (needle +:+ rest).
Proof. exists EmptyString, rest. reflexivity. Qed.

Lemma occurs_in_skip (needle piece rest : string) :
  occurs_in needle rest -> occurs_in needle (piece +:+ rest).
Proof.
  intros (before & after & ->).
  exists (piece +:+ before), after. now rewrite append_assoc.
Qed.

End Substrings.

Ltac find_occurrence :=
  repeat first [ apply occurs_in_here | apply occurs_in_skip ].

(** ** Comparison of floats *)

Section FloatOrder.

Lemma ge_cases (x y : spec_float) :
  PyFloat.ge x y = true <-> SFcompare y x = Some Lt \/ SFcompare y x = Some Eq.
Proof.
  unfold PyFloat.ge, SFleb.
  destruct (SFcompare y x) as [[ | | ]|]; split; intros H;
    try reflexivity; try discriminate; auto;
    destruct H as [H|H]; discriminate.
Qed.

Lemma positive_not_le_zero (t : spec_float) :
  SFltb PyFloat.zero t = true -> PyFloat.ge PyFloat.zero t = false.
Proof.
  unfold PyFloat.ge, PyFloat.zero, SFltb, SFleb.
  destruct t as [s|s| |s m e]; simpl; try discriminate;
    destruct s; simpl; intros H; try discriminate; reflexivity.
Qed.

Lemma nonpositive_le_zero (t : spec_float) :
  SFleb t PyFloat.zero = true -> PyFloat.ge PyFloat.zero t = true.
Proof. intros H; exact H. Qed.

End FloatOrder.

(** ** The collective mastery check *)

Module MasteryFacts.
Import CollectiveValidation.

Lemma has_mastered_spec (competence_id : string) (student : gmap string string) :
  has_mastered competence_id student = true <->
  student !! competence_id = Some "maîtrisé".
Proof. unfold has_mastered, mastered_label. apply bool_decide_eq_true. Qed.

Lemma has_mastered_false (competence_id : string) (student : gmap string string) :
  student !! competence_id <> Some "maîtrisé" ->
  has_mastered competence_id student = false.
Proof.
  intros H. unfold has_mastered, mastered_label.
  apply bool_decide_eq_false. exact H.
Qed.

(** The generator sum is the number of students holding the label. *)
Lemma mastery_count_filter (data : list (gmap string string)) (competence_id : string) :
  mastery_count data competence_id =
  length (filter (fun student : gmap string string =>
                    student !! competence_id = Some "maîtrisé") data).
Proof.
  induction data as [|student rest IH]; simpl; [reflexivity|].
  rewrite filter_cons. unfold has_mastered, mastered_label.
  destruct (decide (student !! competence_id = Some "maîtrisé")) as [Hm|Hm].
  - rewrite bool_decide_eq_true_2 by exact Hm. simpl. now rewrite IH.
  - rewrite bool_decide_eq_false_2 by exact Hm. exact IH.
Qed.

Lemma mastery_count_app (l1 l2 : list (gmap string string)) (competence_id : string) :
  mastery_count (l1 ++ l2) competence_id =
  mastery_count l1 competence_id + mastery_count l2 competence_id.
Proof.
  induction l1 as [|student rest IH]; simpl; [reflexivity|].
  destruct (has_mastered competence_id student); rewrite IH; reflexivity.
Qed.

Lemma mastery_count_le_length (data : list (gmap string string)) (competence_id : string) :
  mastery_count data competence_id <= length data.
Proof.
  induction data as [|student rest IH]; simpl; [lia|].
  destruct (has_mastered competence_id student); lia.
Qed.

(** The guard on the empty list keeps the division away from zero. *)
Lemma mastery_ratio_nonempty (data : list (gmap string string)) (competence_id : string) :
  data <> [] ->
  mastery_ratio data competence_id =
  Return (SFdiv PyFloat.prec PyFloat.emax
            (PyFloat.of_nat (mastery_count data competence_id))
            (PyFloat.of_nat (length data))).
Proof.
  destruct data as [|student rest]; [congruence|].
  intros _. reflexivity.
Qed.

Lemma mastery_ratio_returns (data : list (gmap string string)) (competence_id : string) :
  returns (mastery_ratio data competence_id).
Proof.
  destruct data as [|student rest].
  - exists PyFloat.zero. reflexivity.
  - eexists. apply mastery_ratio_nonempty. discriminate.
Qed.

Lemma check_collective_mastery_returns (data : list (gmap string string))
    (competence_id : string) (threshold : spec_float) :
  returns (check_collective_mastery data competence_id threshold).
Proof.
  unfold check_collective_mastery.
  destruct (mastery_ratio_returns data competence_id) as [ratio ->].
  simpl. eexists. reflexivity.
Qed.

(** Any class of ten with nine holding the label passes the default
    threshold: 9/10 rounds to the very double the literal 0.9 denotes. *)
Lemma nine_of_ten (data : list (gmap string string)) (competence_id : string) :
  length data = 10 ->
  mastery_count data competence_id = 9 ->
  mastery_ratio data competence_id = Return PyFloat.lit_0_9 /\
  check_collective_mastery data competence_id PyFloat.lit_0_9 = Return true.
Proof.
  intros Hlen Hcount.
  assert (Hne : data <> []) by (intros ->; discriminate).
  unfold check_collective_mastery.
  rewrite (mastery_ratio_nonempty _ _ Hne), Hlen, Hcount.
  split; vm_compute; reflexivity.
Qed.

(** On an empty roster the answer only depends on the sign of the
    threshold: zero and below are met. *)
Lemma empty_roster_met_when_nonpositive (competence_id : string) (threshold : spec_float) :
  SFleb threshold PyFloat.zero = true ->
  check_collective_mastery [] competence_id threshold = Return true.
Proof.
  intros Hle. unfold check_collective_mastery. simpl.
  now rewrite (nonpositive_le_zero _ Hle).
Qed.

(** C1 as stated fails: on an empty roster a threshold of zero is met. *)
Lemma empty_roster_meets_zero_threshold :
  check_collective_mastery [] "D1.3" PyFloat.zero = Return true /\
  check_collective_mastery [] "D1.3" PyFloat.zero <> Return false.
Proof. split; [reflexivity | discriminate]. Qed.

(** C1 (amended): for every competency id and every threshold above zero,
    the check on an empty roster computes the ratio 0 without dividing and
    answers that the threshold is not met. *)
Theorem empty_roster_not_met (competence_id : string) (threshold : spec_float) :
  SFltb PyFloat.zero threshold = true ->
  mastery_ratio [] competence_id = Return PyFloat.zero /\
  check_collective_mastery [] competence_id threshold = Return false.
Proof.
  intros Hpos. split; [reflexivity|].
  unfold check_collective_mastery. simpl.
  now rewrite (positive_not_le_zero _ Hpos).
Qed.

Lemma empty_roster_not_met_witness :
  SFltb PyFloat.zero PyFloat.lit_0_9 = true /\
  mastery_ratio [] "D1.3" = Return PyFloat.zero /\
  check_collective_mastery [] "D1.3" PyFloat.lit_0_9 = Return false.
Proof.
  split; [reflexivity|].
  apply (empty_roster_not_met "D1.3" PyFloat.lit_0_9). reflexivity.
Defined.

(** C2: the check always computes a ratio, and its answer is true exactly
    when the threshold is below that ratio or equal to it, the bound being
    closed; in particular any roster of ten students of whom nine hold the
    mastered label meets the threshold 0.9. *)
Theorem threshold_met_iff_ratio_ge (data : list (gmap string string))
    (competence_id : string) (threshold : spec_float) :
  (exists ratio : spec_float,
     mastery_ratio data competence_id = Return ratio /\
     check_collective_mastery data competence_id threshold
       = Return (PyFloat.ge ratio threshold) /\
     (check_collective_mastery data competence_id threshold = Return true <->
      SFcompare threshold ratio = Some Lt \/ SFcompare threshold ratio = Some Eq)) /\
  (length data = 10 ->
   mastery_count data competence_id = 9 ->
   check_collective_mastery data competence_id PyFloat.lit_0_9 = Return true).
Proof.
  split.
  - destruct (mastery_ratio_returns data competence_id) as [ratio Hratio].
    exists ratio. split; [exact Hratio|].
    unfold check_collective_mastery. rewrite Hratio. simpl.
    split; [reflexivity|].
    rewrite <- ge_cases. split; [now intros [= ->] | now intros ->].
  - intros Hlen Hcount. now apply nine_of_ten.
Qed.

Lemma threshold_met_iff_ratio_ge_witness :
  length progress_data = 10 /\
  mastery_count progress_data "D1.3" = 9 /\
  check_collective_mastery progress_data "D1.3" PyFloat.lit_0_9 = Return true.
Proof.
  split; [reflexivity|]. split; [vm_compute; reflexivity|].
  apply (proj2 (threshold_met_iff_ratio_ge progress_data "D1.3" PyFloat.lit_0_9));
    vm_compute; reflexivity.
Defined.

(** C3: on a non-empty roster the ratio is the number of students whose
    entry for the competency is the mastered label, divided by the length
    of the very list passed to the call. *)
Theorem ratio_is_mastered_over_size (data : list (gmap string string))
    (competence_id : string) :
  data <> [] ->
  mastery_ratio data competence_id =
  Return (SFdiv PyFloat.prec PyFloat.emax
            (PyFloat.of_nat
               (length (filter (fun student : gmap string string =>
                                  student !! competence_id = Some "maîtrisé") data)))
            (PyFloat.of_nat (length data))).
Proof.
  intros Hne. rewrite (mastery_ratio_nonempty _ _ Hne).
  now rewrite mastery_count_filter.
Qed.

Lemma ratio_is_mastered_over_size_witness :
  progress_data <> [] /\
  mastery_ratio progress_data "D1.3" =
  Return (SFdiv PyFloat.prec PyFloat.emax (PyFloat.of_nat 9) (PyFloat.of_nat 10)).
Proof.
  split; [discriminate|].
  rewrite (ratio_is_mastered_over_size progress_data "D1.3"); [|discriminate].
  vm_compute. reflexivity.
Defined.

(** C10: a student whose record lacks the competency or holds any label
    other than the mastered one is not counted, wherever the record stands
    in the roster, yet is part of the denominator; the check still returns. *)
Theorem other_label_in_denominator_only (before after : list (gmap string string))
    (student : gmap string string) (competence_id : string) (threshold : spec_float) :
  student !! competence_id <> Some "maîtrisé" ->
  has_mastered competence_id student = false /\
  mastery_count (before ++ student :: after) competence_id
    = mastery_count (before ++ after) competence_id /\
  mastery_ratio (before ++ student :: after) competence_id
    = Return (SFdiv PyFloat.prec PyFloat.emax
                (PyFloat.of_nat (mastery_count (before ++ after) competence_id))
                (PyFloat.of_nat (S (length (before ++ after))))) /\
  returns (check_collective_mastery (before ++ student :: after) competence_id threshold).
Proof.
  intros Hother.
  pose proof (has_mastered_false _ _ Hother) as Hfalse.
  assert (Hcount : mastery_count (before ++ student :: after) competence_id
                   = mastery_count (before ++ after) competence_id).
  { rewrite !mastery_count_app. simpl. now rewrite Hfalse. }
  split; [exact Hfalse|]. split; [exact Hcount|]. split.
  - rewrite mastery_ratio_nonempty by (destruct before; discriminate).
    rewrite Hcount. do 3 f_equal.
    rewrite !length_app. simpl. lia.
  - apply check_collective_mastery_returns.
Qed.

Lemma other_label_in_denominator_only_witness :
  en_cours !! "D1.3" <> Some "maîtrisé" /\
  mastery_count [maitrise; en_cours; maitrise] "D1.3" = 2 /\
  mastery_count [maitrise; ∅; maitrise] "D1.3" = 2 /\
  mastery_count [maitrise; {[ "D1.3" := "Maîtrisé" ]}; maitrise] "D1.3" = 2.
Proof.
  assert (H1 : en_cours !! "D1.3" <> Some "maîtrisé") by (vm_compute; discriminate).
  assert (H2 : (∅ : gmap string string) !! "D1.3" <> Some "maîtrisé")
    by (vm_compute; discriminate).
  assert (H3 : ({[ "D1.3" := "Maîtrisé" ]} : gmap string string) !! "D1.3"
               <> Some "maîtrisé") by (vm_compute; discriminate).
  split; [exact H1|].
  split; [|split].
  - exact (proj1 (proj2 (other_label_in_denominator_only [maitrise] [maitrise]
                           en_cours "D1.3" PyFloat.lit_0_9 H1))).
  - exact (proj1 (proj2 (other_label_in_denominator_only [maitrise] [maitrise]
                           ∅ "D1.3" PyFloat.lit_0_9 H2))).
  - exact (proj1 (proj2 (other_label_in_denominator_only [maitrise] [maitrise]
                           {[ "D1.3" := "Maîtrisé" ]} "D1.3" PyFloat.lit_0_9 H3))).
Defined.

End MasteryFacts.


(** ** The collective validation sequence *)

Module GateFacts.
Import CollectiveValidation.

Lemma assessment_prompt_mentions (competence_id student_level : string) :
  occurs_in competence_id (assessment_prompt competence_id student_level) /\
  occurs_in student_level (assessment_prompt competence_id student_level).
Proof. unfold assessment_prompt. split; find_occurrence. Qed.

(** C7 as stated fails: when the threshold is not met the sequence yields
    the same bare value whatever the ratio was, so no ratio can be read off
    it.  Eight of ten and none of one both end in [None]. *)
Lemma no_action_carries_no_ratio :
  fst (main Samples.eight_of_ten "D1.3" PyFloat.lit_0_9 "moyen" Samples.class_agent)
    = Return None /\
  fst (main Samples.none_of_one "D1.3" PyFloat.lit_0_9 "moyen" Samples.class_agent)
    = Return None /\
  mastery_ratio Samples.eight_of_ten "D1.3" = Return PyFloat.lit_0_8 /\
  mastery_ratio Samples.none_of_one "D1.3" = Return PyFloat.zero /\
  ~ (exists ratio_of : PyResult (option (gmap string string)) -> spec_float,
       forall (agent : Agent unit) (data : list (gmap string string))
              (competence_id : string) (threshold : spec_float)
              (student_level : string) (ratio : spec_float),
         check_collective_mastery data competence_id threshold = Return false ->
         mastery_ratio data competence_id = Return ratio ->
         ratio_of (fst (main data competence_id threshold student_level agent)) = ratio).
Proof.
  assert (R8 : mastery_ratio Samples.eight_of_ten "D1.3" = Return PyFloat.lit_0_8)
    by (vm_compute; reflexivity).
  assert (R0 : mastery_ratio Samples.none_of_one "D1.3" = Return PyFloat.zero)
    by (vm_compute; reflexivity).
  assert (C8 : check_collective_mastery Samples.eight_of_ten "D1.3" PyFloat.lit_0_9
               = Return false) by (vm_compute; reflexivity).
  assert (C0 : check_collective_mastery Samples.none_of_one "D1.3" PyFloat.lit_0_9
               = Return false) by (vm_compute; reflexivity).
  assert (M8 : fst (main Samples.eight_of_ten "D1.3" PyFloat.lit_0_9 "moyen"
                      Samples.class_agent) = Return None)
    by (unfold main; rewrite C8; reflexivity).
  assert (M0 : fst (main Samples.none_of_one "D1.3" PyFloat.lit_0_9 "moyen"
                      Samples.class_agent) = Return None)
    by (unfold main; rewrite C0; reflexivity).
  repeat (split; [assumption|]).
  intros [ratio_of H].
  pose proof (H Samples.class_agent _ _ _ "moyen" _ C8 R8) as H8.
  pose proof (H Samples.class_agent _ _ _ "moyen" _ C0 R0) as H0.
  rewrite M8 in H8. rewrite M0 in H0. rewrite H8 in H0. discriminate H0.
Qed.

(** C7 (amended): the check always answers.  When the threshold is met the
    sequence sends the content-generation service exactly one request, to
    gpt-4, made of a system message and of a user message whose text carries
    the competency id and the class-level label, and yields the service's
    answer as a success result under [assessment], or an error result with
    the failure's message; when it is not met nothing is sent and the
    sequence yields no result, the agent being left as it was. *)
Theorem gate_dispatches_or_stays_silent {Config : Type} (agent : Agent Config)
    (data : list (gmap string string)) (competence_id : string)
    (threshold : spec_float) (student_level : string) :
  exists is_mastered : bool,
    check_collective_mastery data competence_id threshold = Return is_mastered /\
    if is_mastered
    then
      exists (system_message user_message : Message) (answer : Completion),
        answer = respond (client agent) (sent (client agent))
                   {| messages := [system_message; user_message]; model := "gpt-4" |} /\
        main data competence_id threshold student_level agent =
          (Return (Some match answer with
                        | Content response =>
                            {[ "status" := "success"; "assessment" := response ]}
                        | Failed e =>
                            {[ "status" := "error";
                               "message" :=
                                 "Erreur lors de la génération de l'évaluation collective : "
                                 +:+ e ]}
                        end),
           {| client :=
                {| respond := respond (client agent);
                   sent := sent (client agent)
                           ++ [ {| messages := [system_message; user_message];
                                   model := "gpt-4" |} ] |};
              teachers_config := teachers_config agent |}) /\
        role system_message = "system" /\
        content system_message
          = "Vous êtes un ingénieur pédagogique spécialisé dans la création d'évaluations collectives." /\
        role user_message = "user" /\
        occurs_in competence_id (content user_message) /\
        occurs_in student_level (content user_message)
    else
      main data competence_id threshold student_level agent = (Return None, agent).
Proof.
  destruct (MasteryFacts.check_collective_mastery_returns data competence_id threshold)
    as [is_mastered Hcheck].
  exists is_mastered. split; [exact Hcheck|].
  destruct is_mastered.
  - exists {| role := "system";
              content := "Vous êtes un ingénieur pédagogique spécialisé dans la création d'évaluations collectives." |},
           {| role := "user"; content := assessment_prompt competence_id student_level |},
           (respond (client agent) (sent (client agent))
              (assessment_request competence_id student_level)).
    split; [reflexivity|]. split.
    + unfold main. rewrite Hcheck.
      unfold generate_collective_assessment, st_bind, with_client, dispatch, st_ret.
      cbn [client sent respond teachers_config].
      destruct (respond (client agent) (sent (client agent))
                  (assessment_request competence_id student_level)); reflexivity.
    + split; [reflexivity|]. split; [reflexivity|]. split; [reflexivity|].
      cbn [content]. apply assessment_prompt_mentions.
  - unfold main. rewrite Hcheck. reflexivity.
Qed.

End GateFacts.

(** ** The framework store and the methods that look a competency up *)

Module FrameworkFacts.
Import Framework AcademicCompliance.

Lemma next_in_none (cs : list Competence) (competence_id : string) :
  next_in cs competence_id = None <->
  Forall (fun c => id c <> competence_id) cs.
Proof.
  induction cs as [|c rest IH]; simpl.
  - split; [constructor | reflexivity].
  - destruct (decide (id c = competence_id)) as [Heq|Hne].
    + rewrite bool_decide_eq_true_2 by exact Heq.
      split; [discriminate|]. intros H. inversion H; contradiction.
    + rewrite bool_decide_eq_false_2 by exact Hne.
      rewrite IH. split.
      * intros H. now constructor.
      * intros H. now inversion H.
Qed.

(** The first match of a list: everything before it has another id. *)
Lemma next_in_first (before after : list Competence) (c : Competence)
    (competence_id : string) :
  Forall (fun c' => id c' <> competence_id) before ->
  id c = competence_id ->
  next_in (before ++ c :: after) competence_id = Some c.
Proof.
  intros Hbefore Hid.
  induction Hbefore as [|c' rest Hne _ IH]; simpl.
  - now rewrite bool_decide_eq_true_2.
  - now rewrite bool_decide_eq_false_2.
Qed.

(** The nested generator walks the flattened document. *)
Lemma next_competence_flat (rs : list Referentiel) (competence_id : string) :
  next_competence rs competence_id =
  next_in (concat (map competences rs)) competence_id.
Proof.
  induction rs as [|r rest IH]; simpl; [reflexivity|].
  rewrite IH. clear IH.
  induction (competences r) as [|c cs IHc]; simpl; [reflexivity|].
  destruct (bool_decide (id c = competence_id)); [reflexivity | exact IHc].
Qed.

Lemma find_none (self : Agent) (competence_id : string) :
  find self competence_id = None <->
  competence_id ∉ map id (all_competences (referentiels self)).
Proof.
  unfold find, all_competences. rewrite next_competence_flat, next_in_none.
  rewrite Forall_forall. split.
  - intros H Hin. apply list_elem_of_fmap in Hin as (c & -> & Hc).
    now apply (H c).
  - intros H c Hc Hid. apply H. apply list_elem_of_fmap. now exists c.
Qed.

Lemma with_client_keeps_referentiels {A} (m : State OpenAI A) (self : Agent) :
  referentiels (snd (with_client m self)) = referentiels self.
Proof. unfold with_client. destruct (m (client self)). reflexivity. Qed.

Lemma perform_keeps_referentiels (c : Call) (self : Agent) :
  referentiels (snd (perform c self)) = referentiels self.
Proof.
  destruct c; simpl;
    unfold check_compliance, generate_remediation_plan, generate_enrichment_plan;
    destruct (find self competence_id); reflexivity.
Qed.

(** When the competency is found, exactly one request goes out, and its
    prompt was built from that competency. *)
Lemma found_competence_dispatches (self : Agent) (competence_id content_to_check : string)
    (competence : Competence) :
  find self competence_id = Some competence ->
  sent (client (snd (check_compliance content_to_check competence_id self))) =
  sent (client self)
  ++ [chat_request "Vous êtes un assistant expert en conformité académique."
        (compliance_prompt competence content_to_check) "gpt-4"].
Proof.
  intros Hfound. unfold check_compliance. rewrite Hfound. reflexivity.
Qed.

Lemma find_some (self : Agent) (competence_id : string) (competence : Competence) :
  find self competence_id = Some competence ->
  competence ∈ all_competences (referentiels self) /\ id competence = competence_id.
Proof.
  unfold find, all_competences. rewrite next_competence_flat.
  induction (concat (map competences (Framework.referentiels (referentiels self))))
    as [|c rest IH]; simpl; [discriminate|].
  destruct (decide (id c = competence_id)) as [Heq|Hne].
  - rewrite bool_decide_eq_true_2 by exact Heq.
    intros [= <-]. split; [left | exact Heq].
  - rewrite bool_decide_eq_false_2 by exact Hne.
    intros H. destruct (IH H) as [Hin Hid]. split; [now right | exact Hid].
Qed.

(** C4 as stated fails: a document with a repeated id and with a competency
    that has no indicator is loaded as it is, and the agent is built on it. *)
Lemma flawed_document_loads :
  has_duplicate_id Samples.flawed_doc = true /\
  has_empty_indicateurs Samples.flawed_doc = true /\
  _load_referentiels {[ Samples.referentiels_path := Samples.flawed_doc ]}
    Samples.referentiels_path = Return Samples.flawed_doc /\
  init {[ Samples.referentiels_path := Samples.flawed_doc ]}
    (Samples.constant_service "Conforme") Samples.referentiels_path
    = Return Samples.flawed_agent /\
  (forall exc : string,
     _load_referentiels {[ Samples.referentiels_path := Samples.flawed_doc ]}
       Samples.referentiels_path <> Raise exc).
Proof.
  assert (Hload : _load_referentiels {[ Samples.referentiels_path := Samples.flawed_doc ]}
                    Samples.referentiels_path = Return Samples.flawed_doc)
    by (unfold _load_referentiels; now rewrite lookup_singleton_eq).
  split; [vm_compute; reflexivity|].
  split; [vm_compute; reflexivity|].
  split; [exact Hload|].
  split.
  - unfold init. rewrite Hload. reflexivity.
  - intros exc. rewrite Hload. discriminate.
Qed.

(** C4 (amended): loading checks nothing about the structure.  Whatever
    document the file at the path holds is returned unchanged and becomes
    the agent's framework, so a document whose ids are unique and whose
    competencies all have an indicator loads. *)
Theorem load_returns_document_unchecked (fs : gmap string Document) (path : string)
    (doc : Document) (api : OpenAI) :
  fs !! path = Some doc ->
  _load_referentiels fs path = Return doc /\
  init fs api path = Return {| client := api; referentiels := doc |}.
Proof.
  intros Hfile. unfold init, _load_referentiels. rewrite Hfile. split; reflexivity.
Qed.

Lemma load_returns_document_unchecked_witness :
  has_duplicate_id Samples.sound_doc = false /\
  has_empty_indicateurs Samples.sound_doc = false /\
  _load_referentiels {[ Samples.referentiels_path := Samples.sound_doc ]}
    Samples.referentiels_path = Return Samples.sound_doc.
Proof.
  split; [vm_compute; reflexivity|].
  split; [vm_compute; reflexivity|].
  apply (load_returns_document_unchecked
           {[ Samples.referentiels_path := Samples.sound_doc ]}
           Samples.referentiels_path Samples.sound_doc
           (Samples.constant_service "Conforme")).
  apply lookup_singleton_eq.
Defined.

(** C5: for a competency id that no competency of the loaded framework
    bears, the compliance check, the remediation plan and the enrichment
    plan each return an error result and leave the agent, hence the list of
    requests sent to the service, exactly as it was. *)
Theorem absent_competence_no_dispatch (self : Agent) (competence_id : string)
    (content_to_check identified_gaps : string) (student_data : gmap string string) :
  competence_id ∉ map id (all_competences (referentiels self)) ->
  check_compliance content_to_check competence_id self =
    (error_result ("Compétence " +:+ competence_id
                   +:+ " non trouvée dans les référentiels."), self) /\
  generate_remediation_plan student_data competence_id identified_gaps self =
    (error_result ("Compétence " +:+ competence_id +:+ " non trouvée."), self) /\
  generate_enrichment_plan student_data competence_id self =
    (error_result ("Compétence " +:+ competence_id +:+ " non trouvée."), self) /\
  (forall message : string, error_result message !! "status" = Some "error").
Proof.
  intros Habsent. apply find_none in Habsent.
  unfold check_compliance, generate_remediation_plan, generate_enrichment_plan.
  rewrite Habsent. repeat split.
Qed.

Lemma absent_competence_no_dispatch_witness :
  ("X9.9" ∉ map id (all_competences (referentiels Samples.sound_agent))) /\
  sent (client (snd (check_compliance "Le théorème de Pythagore" "X9.9"
                       Samples.sound_agent))) = [] /\
  fst (check_compliance "Le théorème de Pythagore" "X9.9" Samples.sound_agent)
    !! "status" = Some "error".
Proof.
  assert (Habsent : "X9.9" ∉ map id (all_competences (referentiels Samples.sound_agent))).
  { apply find_none. vm_compute. reflexivity. }
  destruct (absent_competence_no_dispatch Samples.sound_agent "X9.9"
              "Le théorème de Pythagore" "lacunes" Samples.alice Habsent)
    as (Hcheck & _ & _ & Hstatus).
  split; [exact Habsent|].
  rewrite Hcheck. split; [reflexivity | apply Hstatus].
Defined.

(** C8: a lookup gives the same competency before and after any sequence of
    calls to the agent's methods, because none of them changes the loaded
    framework. *)
Theorem lookup_stable_under_calls (calls : list Call) (self : Agent)
    (competence_id : string) :
  referentiels (snd (perform_all calls self)) = referentiels self /\
  find (snd (perform_all calls self)) competence_id = find self competence_id.
Proof.
  assert (Hkeep : forall cs s, referentiels (snd (perform_all cs s)) = referentiels s).
  { induction cs as [|c rest IH]; intros s; simpl; [reflexivity|].
    unfold st_bind.
    pose proof (perform_keeps_referentiels c s) as Hc.
    destruct (perform c s) as [r s1]. simpl in Hc.
    pose proof (IH s1) as Hrest.
    destruct (perform_all rest s1) as [rs s2]. simpl in *.
    congruence. }
  split; [apply Hkeep|].
  unfold find. now rewrite Hkeep.
Qed.

(** C9: when several competencies bear the requested id, the lookup returns
    the one met first in document order, first by domain and then by position
    inside the domain, whatever follows it; no ambiguity is reported. *)
Theorem find_first_in_document_order (self : Agent) (competence_id : string)
    (domains_before domains_after : list Referentiel) (domain : Referentiel)
    (before after : list Competence) (c : Competence) :
  Framework.referentiels (referentiels self)
    = domains_before ++ domain :: domains_after ->
  competences domain = before ++ c :: after ->
  id c = competence_id ->
  Forall (fun c' => id c' <> competence_id)
         (concat (map competences domains_before)) ->
  Forall (fun c' => id c' <> competence_id) before ->
  find self competence_id = Some c.
Proof.
  intros Hdoc Hdomain Hid Hdomains Hbefore.
  unfold find. rewrite Hdoc, next_competence_flat.
  rewrite map_app, concat_app. simpl. rewrite Hdomain.
  rewrite <- !app_assoc, app_assoc. simpl.
  apply next_in_first; [|exact Hid].
  apply Forall_app. now split.
Qed.

Lemma find_first_in_document_order_witness :
  has_duplicate_id (referentiels Samples.flawed_agent) = true /\
  find Samples.flawed_agent "D1.3" = Some Samples.d13.
Proof.
  split; [vm_compute; reflexivity|].
  apply (find_first_in_document_order Samples.flawed_agent "D1.3"
           [] [ {| competences := [Samples.d21_bare; Samples.d13_again] |} ]
           {| competences := [Samples.d13] |} [] [] Samples.d13);
    try reflexivity; constructor.
Defined.

End FrameworkFacts.

(** ** The workflow orchestrator *)

Module OrchestratorFacts.
Import GeminiCompliance.

Lemma workflow_prompt_mentions (workflow_description current_state : string) :
  occurs_in workflow_description (workflow_prompt workflow_description current_state) /\
  occurs_in current_state (workflow_prompt workflow_description current_state).
Proof. unfold workflow_prompt. split; find_occurrence. Qed.

(** C6 as stated fails: with a model that always answers "C", the result
    for stages A, B, C is the same whether "A", "C" or an undeclared "Z" was
    completed, so no reading of the result gives the stage that follows in
    declared order, however the stages are described to the method. *)
Lemma orchestrator_ignores_declared_order :
  fst (orchestrate_workflow "A, B, C" "A" Samples.gemini_agent)
    = {[ "status" := "success"; "next_steps" := "C" ]} /\
  fst (orchestrate_workflow "A, B, C" "Z" Samples.gemini_agent)
    = {[ "status" := "success"; "next_steps" := "C" ]} /\
  StageRule.next_stage ["A"; "B"; "C"] "A" = StageRule.NextStage "B" /\
  StageRule.next_stage ["A"; "B"; "C"] "Z" = StageRule.UnrecognizedStage /\
  ~ (exists (describe : list string -> string)
            (decode : gmap string string -> StageRule.Decision),
       forall (self : Agent) (stages : list string) (completed : string),
         decode (fst (orchestrate_workflow (describe stages) completed self))
         = StageRule.next_stage stages completed).
Proof.
  split; [reflexivity|]. split; [reflexivity|].
  split; [vm_compute; reflexivity|]. split; [vm_compute; reflexivity|].
  intros (describe & decode & H).
  pose proof (H Samples.gemini_agent ["A"; "B"; "C"] "A") as HA.
  pose proof (H Samples.gemini_agent ["A"; "B"; "C"] "Z") as HZ.
  change (fst (orchestrate_workflow (describe ["A"; "B"; "C"]) "A" Samples.gemini_agent))
    with (workflow_result (Content "C")) in HA.
  change (fst (orchestrate_workflow (describe ["A"; "B"; "C"]) "Z" Samples.gemini_agent))
    with (workflow_result (Content "C")) in HZ.
  rewrite HA in HZ. vm_compute in HZ. discriminate HZ.
Qed.

(** C6 (amended): the orchestrator computes no successor itself.  It sends
    the model one prompt that quotes the workflow description and the current
    state, and returns the model's text as [next_steps] under status
    success, or an error result with the failure's message. *)
Theorem orchestrate_workflow_relays_model (self : Agent)
    (workflow_description current_state : string) :
  orchestrate_workflow workflow_description current_state self =
    (workflow_result
       (respond (model self) (sent (model self))
                (workflow_prompt workflow_description current_state)),
     {| model :=
          {| respond := respond (model self);
             sent := sent (model self)
                     ++ [workflow_prompt workflow_description current_state] |} |}) /\
  occurs_in workflow_description (workflow_prompt workflow_description current_state) /\
  occurs_in current_state (workflow_prompt workflow_description current_state) /\
  (forall text : string,
     workflow_result (Content text)
     = {[ "status" := "success"; "next_steps" := text ]}) /\
  (forall e : string,
     workflow_result (Failed e)
     = {[ "status" := "error";
          "message" := "Erreur lors de l'orchestration du workflow : " +:+ e ]}).
Proof.
  split; [reflexivity|].
  split; [apply workflow_prompt_mentions|].
  split; [apply workflow_prompt_mentions|].
  split; reflexivity.
Qed.

End OrchestratorFacts.

(** * Further properties of the agents and tools *)

(** ** Order on floats *)

Section FloatOrderMore.

Lemma compare_cont_spec (p q : positive) :
  PosDef.Pos.compare_cont Eq p q = (p ?= q)%positive.
Proof. reflexivity. Qed.

Ltac split_comparisons :=
  repeat (simpl in *; rewrite ?compare_cont_spec in *;
          match goal with
          | H : context [ (?x ?= ?y)%Z ] |- _ => destruct (Z.compare_spec x y)
          | H : context [ (?x ?= ?y)%positive ] |- _ => destruct (Pos.compare_spec x y)
          | |- context [ (?x ?= ?y)%Z ] => destruct (Z.compare_spec x y)
          | |- context [ (?x ?= ?y)%positive ] => destruct (Pos.compare_spec x y)
          end).

(** [<=] on floats is transitive, NaN being below and above nothing. *)
Lemma SFleb_trans (a b c : spec_float) :
  SFleb a b = true -> SFleb b c = true -> SFleb a c = true.
Proof.
  unfold SFleb. intros Hab Hbc.
  destruct a as [sa|sa| |sa ma ea], b as [sb|sb| |sb mb eb], c as [sc|sc| |sc mc ec];
    simpl in *; try discriminate; try reflexivity;
    try (destruct sa); try (destruct sb); try (destruct sc);
    simpl in *; try discriminate; try reflexivity;
    split_comparisons; try discriminate; try reflexivity; exfalso; lia.
Qed.

Lemma positive_above_any_zero (t : spec_float) (s : bool) :
  SFltb PyFloat.zero t = true -> SFleb t (S754_zero s) = false.
Proof.
  unfold PyFloat.zero, SFltb, SFleb.
  destruct t as [st|st| |st m e]; simpl; try discriminate;
    destruct st; simpl; intros H; try discriminate; reflexivity.
Qed.

Lemma nothing_below_nan (t : spec_float) : SFleb t S754_nan = false.
Proof. destruct t; reflexivity. Qed.

(** Zero divided by anything is a zero or NaN. *)
Lemma zero_div_cases (y : spec_float) :
  SFdiv PyFloat.prec PyFloat.emax (S754_zero false) y = S754_nan \/
  exists s, SFdiv PyFloat.prec PyFloat.emax (S754_zero false) y = S754_zero s.
Proof.
  destruct y as [s|s| |s m e]; simpl; [left | right | left | right];
    try reflexivity; eexists; reflexivity.
Qed.

End FloatOrderMore.

(** ** More on the collective mastery check *)

Module MasteryMore.
Import CollectiveValidation.

(** The ratio only looks at the count and at the length. *)
Lemma mastery_ratio_by_count (data : list (gmap string string)) (competence_id : string) :
  mastery_ratio data competence_id =
  match length data with
  | O => Return PyFloat.zero
  | S _ => PyFloat.truediv (mastery_count data competence_id) (length data)
  end.
Proof. destruct data; reflexivity. Qed.

Lemma mastery_count_permutation (data data' : list (gmap string string))
    (competence_id : string) :
  Permutation data data' ->
  mastery_count data competence_id = mastery_count data' competence_id.
Proof.
  induction 1 as [|s l l' _ IH|s s' l|l l' l'' _ IH1 _ IH2]; simpl.
  - reflexivity.
  - now rewrite IH.
  - destruct (has_mastered competence_id s), (has_mastered competence_id s'); reflexivity.
  - now rewrite IH1.
Qed.

Lemma mastery_count_none (data : list (gmap string string)) (competence_id : string) :
  Forall (fun student : gmap string string =>
            student !! competence_id <> Some "maîtrisé") data ->
  mastery_count data competence_id = 0.
Proof.
  induction 1 as [|s l Hs _ IH]; simpl; [reflexivity|].
  now rewrite (MasteryFacts.has_mastered_false _ _ Hs).
Qed.

(** X1: the verdict does not depend on the order in which the students are
    listed. *)
Theorem verdict_ignores_order (data data' : list (gmap string string))
    (competence_id : string) (threshold : spec_float) :
  Permutation data data' ->
  mastery_ratio data competence_id = mastery_ratio data' competence_id /\
  check_collective_mastery data competence_id threshold
    = check_collective_mastery data' competence_id threshold.
Proof.
  intros Hperm.
  assert (Hratio : mastery_ratio data competence_id = mastery_ratio data' competence_id).
  { rewrite !mastery_ratio_by_count.
    rewrite (mastery_count_permutation _ _ _ Hperm).
    now rewrite (Permutation_length Hperm). }
  split; [exact Hratio|].
  unfold check_collective_mastery. now rewrite Hratio.
Qed.

Lemma verdict_ignores_order_witness :
  Permutation [maitrise; en_cours; maitrise] [en_cours; maitrise; maitrise] /\
  check_collective_mastery [maitrise; en_cours; maitrise] "D1.3" PyFloat.lit_0_9
    = check_collective_mastery [en_cours; maitrise; maitrise] "D1.3" PyFloat.lit_0_9.
Proof.
  assert (Hperm : Permutation [maitrise; en_cours; maitrise]
                              [en_cours; maitrise; maitrise]) by apply perm_swap.
  split; [exact Hperm|].
  exact (proj2 (verdict_ignores_order _ _ "D1.3" PyFloat.lit_0_9 Hperm)).
Defined.

(** X2: a student's entries for other competencies, and any other key of
    the record, have no influence: two rosters whose students agree one by
    one on the entry for the competency get the same ratio and verdict. *)
Theorem verdict_reads_one_entry (data data' : list (gmap string string))
    (competence_id : string) (threshold : spec_float) :
  Forall2 (fun s s' : gmap string string => s !! competence_id = s' !! competence_id)
          data data' ->
  mastery_ratio data competence_id = mastery_ratio data' competence_id /\
  check_collective_mastery data competence_id threshold
    = check_collective_mastery data' competence_id threshold.
Proof.
  intros Hagree.
  assert (Hcount : mastery_count data competence_id = mastery_count data' competence_id).
  { induction Hagree as [|s s' l l' Hs _ IH]; simpl; [reflexivity|].
    unfold has_mastered. rewrite Hs, IH. reflexivity. }
  assert (Hratio : mastery_ratio data competence_id = mastery_ratio data' competence_id).
  { rewrite !mastery_ratio_by_count, Hcount.
    now rewrite (Forall2_length _ _ _ Hagree). }
  split; [exact Hratio|].
  unfold check_collective_mastery. now rewrite Hratio.
Qed.

Lemma verdict_reads_one_entry_witness :
  check_collective_mastery
    [ {[ "D1.3" := "maîtrisé"; "D2.1" := "en cours"; "name" := "Alice" ]}; en_cours ]
    "D1.3" PyFloat.lit_0_9
  = check_collective_mastery [maitrise; en_cours] "D1.3" PyFloat.lit_0_9.
Proof.
  apply (verdict_reads_one_entry
           [ {[ "D1.3" := "maîtrisé"; "D2.1" := "en cours"; "name" := "Alice" ]}; en_cours ]
           [maitrise; en_cours] "D1.3" PyFloat.lit_0_9).
  repeat constructor.
Defined.

(** X3: lowering the threshold never turns a met verdict into an unmet
    one. *)
Theorem lower_threshold_still_met (data : list (gmap string string))
    (competence_id : string) (threshold lower : spec_float) :
  SFleb lower threshold = true ->
  check_collective_mastery data competence_id threshold = Return true ->
  check_collective_mastery data competence_id lower = Return true.
Proof.
  intros Hle. unfold check_collective_mastery.
  destruct (MasteryFacts.mastery_ratio_returns data competence_id) as [ratio ->].
  simpl. unfold PyFloat.ge. intros [= Hmet].
  now rewrite (SFleb_trans _ _ _ Hle Hmet).
Qed.

Lemma lower_threshold_still_met_witness :
  SFleb PyFloat.lit_0_8 PyFloat.lit_0_9 = true /\
  check_collective_mastery progress_data "D1.3" PyFloat.lit_0_8 = Return true.
Proof.
  split; [reflexivity|].
  apply (lower_threshold_still_met progress_data "D1.3" PyFloat.lit_0_9 PyFloat.lit_0_8).
  - reflexivity.
  - vm_compute. reflexivity.
Defined.

(** Without any master the ratio is a zero, or NaN should the length
    convert to zero. *)
Lemma ratio_without_master (data : list (gmap string string)) (competence_id : string) :
  Forall (fun student : gmap string string =>
            student !! competence_id <> Some "maîtrisé") data ->
  exists ratio : spec_float,
    mastery_ratio data competence_id = Return ratio /\
    (ratio = S754_nan \/ exists s, ratio = S754_zero s).
Proof.
  intros Hnone. destruct data as [|s rest].
  - exists PyFloat.zero. split; [reflexivity|]. right. now exists false.
  - rewrite MasteryFacts.mastery_ratio_nonempty by discriminate.
    rewrite (mastery_count_none _ _ Hnone).
    change (PyFloat.of_nat 0) with (S754_zero false).
    eexists. split; [reflexivity|]. apply zero_div_cases.
Qed.

(** X4: when no student of the roster holds the mastered label, no
    threshold above zero is met, whatever the size of the roster. *)
Theorem nobody_mastered_not_met (data : list (gmap string string))
    (competence_id : string) (threshold : spec_float) :
  Forall (fun student : gmap string string =>
            student !! competence_id <> Some "maîtrisé") data ->
  SFltb PyFloat.zero threshold = true ->
  check_collective_mastery data competence_id threshold = Return false.
Proof.
  intros Hnone Hpos. unfold check_collective_mastery.
  destruct (ratio_without_master data competence_id Hnone)
    as (ratio & -> & [-> | [s ->]]);
    cbn [py_bind]; unfold PyFloat.ge.
  - now rewrite nothing_below_nan.
  - now rewrite (positive_above_any_zero _ _ Hpos).
Qed.

Lemma nobody_mastered_not_met_witness :
  check_collective_mastery [en_cours; ∅; en_cours] "D1.3" PyFloat.lit_0_9 = Return false.
Proof.
  apply (nobody_mastered_not_met [en_cours; ∅; en_cours] "D1.3" PyFloat.lit_0_9).
  - repeat constructor; vm_compute; discriminate.
  - reflexivity.
Defined.

(** X5: the count never exceeds the size of the roster, and reaches it
    exactly when every student holds the mastered label. *)
Theorem count_within_roster (data : list (gmap string string)) (competence_id : string) :
  mastery_count data competence_id <= length data /\
  (mastery_count data competence_id = length data <->
   Forall (fun student : gmap string string =>
             student !! competence_id = Some "maîtrisé") data).
Proof.
  split; [apply MasteryFacts.mastery_count_le_length|].
  induction data as [|s rest IH]; simpl.
  - split; [constructor | reflexivity].
  - pose proof (MasteryFacts.mastery_count_le_length rest competence_id) as Hle.
    destruct (has_mastered competence_id s) eqn:Hs.
    + apply MasteryFacts.has_mastered_spec in Hs. split.
      * intros H. constructor; [exact Hs|]. apply IH. lia.
      * intros H. inversion H as [|? ? _ Hrest]; subst. apply IH in Hrest. lia.
    + split; [lia|].
      intros H. inversion H as [|? ? Hhead _]; subst.
      apply MasteryFacts.has_mastered_spec in Hhead. congruence.
Qed.

End MasteryMore.

(** ** More on the competency lookup *)

Module FrameworkMore.
Import Framework AcademicCompliance.

Lemma find_flat (self : Agent) (competence_id : string) :
  find self competence_id =
  next_in (all_competences (referentiels self)) competence_id.
Proof. unfold find, all_competences. apply FrameworkFacts.next_competence_flat. Qed.

(** X6: a successful lookup returns a competency of the framework that
    bears exactly the requested id, and no competency standing before it in
    document order bears that id. *)
Theorem find_returns_first_bearer (self : Agent) (competence_id : string)
    (c : Competence) :
  find self competence_id = Some c ->
  exists before after,
    all_competences (referentiels self) = before ++ c :: after /\
    id c = competence_id /\
    Forall (fun c' => id c' <> competence_id) before.
Proof.
  rewrite find_flat.
  induction (all_competences (referentiels self)) as [|c0 rest IH]; simpl; [discriminate|].
  destruct (decide (id c0 = competence_id)) as [Heq|Hne].
  - rewrite bool_decide_eq_true_2 by exact Heq. intros [= <-].
    exists [], rest. repeat split; [exact Heq | constructor].
  - rewrite bool_decide_eq_false_2 by exact Hne. intros H.
    destruct (IH H) as (before & after & -> & Hid & Hbefore).
    exists (c0 :: before), after. repeat split; [exact Hid | now constructor].
Qed.

Lemma find_returns_first_bearer_witness :
  find Samples.flawed_agent "D1.3" = Some Samples.d13 /\
  exists before after,
    all_competences (referentiels Samples.flawed_agent)
      = before ++ Samples.d13 :: after /\
    id Samples.d13 = "D1.3" /\
    Forall (fun c' => id c' <> "D1.3") before.
Proof.
  assert (H : find Samples.flawed_agent "D1.3" = Some Samples.d13)
    by (vm_compute; reflexivity).
  split; [exact H|].
  exact (find_returns_first_bearer Samples.flawed_agent "D1.3" Samples.d13 H).
Defined.

(** X7: in a framework whose ids are all different, every competency is
    returned by the lookup of its own id. *)
Theorem unique_ids_every_competency_found (self : Agent) (c : Competence) :
  NoDup (map id (all_competences (referentiels self))) ->
  c ∈ all_competences (referentiels self) ->
  find self (id c) = Some c.
Proof.
  intros Hnodup Hin. rewrite find_flat.
  apply list_elem_of_split in Hin as (before & after & Hsplit).
  rewrite Hsplit in *. apply FrameworkFacts.next_in_first; [|reflexivity].
  rewrite map_app in Hnodup. simpl in Hnodup.
  apply NoDup_app in Hnodup as (_ & Hdisjoint & _).
  apply Forall_forall. intros c' Hc' Heq.
  apply (Hdisjoint (id c')).
  - apply list_elem_of_fmap. now exists c'.
  - rewrite Heq. left.
Qed.

Lemma unique_ids_every_competency_found_witness :
  NoDup (map id (all_competences (referentiels Samples.sound_agent))) /\
  find Samples.sound_agent "D2.1" = Some Samples.d21.
Proof.
  assert (Hnodup : NoDup (map id (all_competences (referentiels Samples.sound_agent)))).
  { apply (bool_decide_unpack _). vm_compute. exact I. }
  split; [exact Hnodup|].
  apply (unique_ids_every_competency_found Samples.sound_agent Samples.d21 Hnodup).
  right. left.
Defined.

(** X8: a competency that shares its id with a different competency
    standing first under that id is returned by no lookup at all. *)
Theorem shadowed_duplicate_unreachable (self : Agent) (before after : list Competence)
    (first other : Competence) (competence_id : string) :
  all_competences (referentiels self) = before ++ first :: after ->
  Forall (fun c' => id c' <> id first) before ->
  id other = id first ->
  other <> first ->
  find self competence_id <> Some other.
Proof.
  intros Hdoc Hbefore Hid Hdiff Hfound.
  destruct (FrameworkFacts.find_some _ _ _ Hfound) as [_ Hcid].
  rewrite find_flat, Hdoc, <- Hcid, Hid in Hfound.
  rewrite (FrameworkFacts.next_in_first before after first (id first) Hbefore eq_refl)
    in Hfound.
  congruence.
Qed.

Lemma shadowed_duplicate_unreachable_witness :
  Samples.d13_again ∈ all_competences (referentiels Samples.flawed_agent) /\
  find Samples.flawed_agent "D1.3" <> Some Samples.d13_again.
Proof.
  split; [vm_compute; right; right; left|].
  apply (shadowed_duplicate_unreachable Samples.flawed_agent
           [] [Samples.d21_bare; Samples.d13_again] Samples.d13 Samples.d13_again "D1.3").
  - reflexivity.
  - constructor.
  - reflexivity.
  - discriminate.
Defined.

End FrameworkMore.

(** ** Sequences of calls to the compliance agent *)

Module CallFacts.
Import Framework AcademicCompliance Calls.

Lemma chat_request_well_formed (system_content user_content : string) :
  well_formed (chat_request system_content user_content "gpt-4").
Proof. split; reflexivity. Qed.

(** What one call does to the client: nothing when the competency is not
    found, one well-formed request at the end of the list otherwise. *)
Lemma perform_client (c : Call) (self : Agent) :
  exists new : list ChatRequest,
    client (snd (perform c self))
      = {| respond := respond (client self); sent := sent (client self) ++ new |} /\
    length new = (if resolves self c then 1 else 0) /\
    Forall well_formed new.
Proof.
  unfold resolves.
  destruct c; simpl;
    unfold check_compliance, generate_remediation_plan, generate_enrichment_plan;
    destruct (find self competence_id) as [competence|].
  all: try (eexists [_]; split; [reflexivity|]; split;
            [ rewrite bool_decide_eq_true_2 by (eexists; reflexivity); reflexivity
            | repeat constructor ]).
  all: exists []; rewrite app_nil_r; split; [now destruct self as [[? ?] ?]|];
       split; [ rewrite bool_decide_eq_false_2 by (intros [? ?]; discriminate); reflexivity
              | constructor ].
Qed.

Lemma resolves_same_framework (self self' : Agent) (c : Call) :
  referentiels self' = referentiels self -> resolves self' c = resolves self c.
Proof. intros H. unfold resolves, find. now rewrite H. Qed.

Lemma perform_all_client (calls : list Call) (self : Agent) :
  exists new : list ChatRequest,
    client (snd (perform_all calls self))
      = {| respond := respond (client self); sent := sent (client self) ++ new |} /\
    length new = length (filter (fun c => resolves self c = true) calls) /\
    Forall well_formed new.
Proof.
  revert self. induction calls as [|c rest IH]; intros self.
  - exists []. simpl. rewrite app_nil_r.
    split; [now destruct self as [[? ?] ?]|]. split; [reflexivity | constructor].
  - simpl. unfold st_bind.
    destruct (perform_client c self) as (new1 & Hclient1 & Hlen1 & Hwf1).
    pose proof (FrameworkFacts.perform_keeps_referentiels c self) as Hrefs.
    destruct (perform c self) as [r self1]. simpl in Hclient1, Hrefs.
    destruct (IH self1) as (new2 & Hclient2 & Hlen2 & Hwf2).
    destruct (perform_all rest self1) as [rs self2]. simpl in Hclient2 |- *.
    exists (new1 ++ new2). split; [|split].
    + rewrite Hclient2, Hclient1. simpl. now rewrite app_assoc.
    + rewrite length_app, Hlen1, Hlen2, filter_cons.
      rewrite (list_filter_iff (fun c0 => resolves self1 c0 = true)
                 (fun c0 => resolves self c0 = true))
        by (intros c0; now rewrite (resolves_same_framework self self1 c0 Hrefs)).
      destruct (resolves self c); reflexivity.
    + now apply Forall_app.
Qed.

(** X9: over any sequence of calls the requests already sent are kept, one
    request is added for each call whose competency the framework holds and
    none for the others, and every added request is addressed to gpt-4 with
    exactly a system message followed by a user message. *)
Theorem requests_follow_resolved_calls (calls : list Call) (self : Agent) :
  exists new : list ChatRequest,
    sent (client (snd (perform_all calls self))) = sent (client self) ++ new /\
    length new = length (filter (fun c => resolves self c = true) calls) /\
    Forall well_formed new.
Proof.
  destruct (perform_all_client calls self) as (new & Hclient & Hlen & Hwf).
  exists new. rewrite Hclient. now repeat split.
Qed.

(** X10: a result whose status is success was obtained from the service:
    exactly one request was sent by the call, the service answered it with a
    text, and the result carries that text unchanged under the key
    [evaluation] or [plan]. *)
Theorem success_carries_service_text (c : Call) (self : Agent) :
  fst (perform c self) !! "status" = Some "success" ->
  exists (request : ChatRequest) (text key : string),
    sent (client (snd (perform c self))) = sent (client self) ++ [request] /\
    respond (client self) (sent (client self)) request = Content text /\
    fst (perform c self) = {[ "status" := "success"; key := text ]} /\
    (key = "evaluation" \/ key = "plan").
Proof.
  destruct c; simpl;
    unfold check_compliance, generate_remediation_plan, generate_enrichment_plan;
    destruct (find self competence_id) as [competence|]; simpl;
    try (intros H; vm_compute in H; discriminate H).
  all: unfold st_bind, with_client, dispatch, st_ret; simpl.
  all: match goal with
       | |- context [ respond ?cl ?hist ?req ] =>
           destruct (respond cl hist req) as [text|e] eqn:Hanswer
       end; simpl;
       try (intros H; vm_compute in H; discriminate H).
  all: intros _; eexists _, text, _; split; [reflexivity|]; split; [exact Hanswer|];
       split; [reflexivity|]; auto.
Qed.

Lemma success_carries_service_text_witness :
  fst (perform (CheckCompliance "Le théorème de Pythagore" "D1.3") Samples.sound_agent)
    !! "status" = Some "success" /\
  exists (request : ChatRequest) (text key : string),
    sent (client (snd (perform (CheckCompliance "Le théorème de Pythagore" "D1.3")
                         Samples.sound_agent)))
      = sent (client Samples.sound_agent) ++ [request] /\
    respond (client Samples.sound_agent) (sent (client Samples.sound_agent)) request
      = Content text /\
    fst (perform (CheckCompliance "Le théorème de Pythagore" "D1.3") Samples.sound_agent)
      = {[ "status" := "success"; key := text ]} /\
    (key = "evaluation" \/ key = "plan").
Proof.
  assert (H : fst (perform (CheckCompliance "Le théorème de Pythagore" "D1.3")
                     Samples.sound_agent) !! "status" = Some "success")
    by (vm_compute; reflexivity).
  split; [exact H|].
  exact (success_carries_service_text _ _ H).
Defined.

End CallFacts.

(** ** What the prompts quote *)

Module PromptFacts.
Import Framework AcademicCompliance.

Lemma append_empty_r (s : string) : s +:+ "" = s.
Proof.
  induction s as [|ch s IH]; [reflexivity|].
  change (String ch (s +:+ "") = String ch s). now rewrite IH.
Qed.

Lemma occurs_in_self (s : string) : occurs_in s s.
Proof. exists "", "". change (s = s +:+ ""). now rewrite append_empty_r. Qed.

Lemma occurs_in_front (needle piece rest : string) :
  occurs_in needle piece -> occurs_in needle (piece +:+ rest).
Proof.
  intros (before & after & ->).
  exists before, (after +:+ rest). now rewrite !append_assoc.
Qed.

(** Every item of a joined list is part of the result. *)
Lemma join_occurs (sep item : string) (items : list string) :
  item ∈ items -> occurs_in item (join sep items).
Proof.
  induction items as [|x rest IH]; intros Hin; [now apply elem_of_nil in Hin|].
  destruct rest as [|y rest].
  - apply list_elem_of_singleton in Hin as ->. apply occurs_in_self.
  - change (occurs_in item (x +:+ sep +:+ join sep (y :: rest))).
    apply elem_of_cons in Hin as [-> | Hin].
    + apply occurs_in_here.
    + do 2 apply occurs_in_skip. now apply IH.
Qed.

Ltac find_quoted :=
  repeat first [ apply occurs_in_here
               | apply occurs_in_front; solve [ apply join_occurs; assumption ]
               | apply occurs_in_skip ].

(** X11: when the competency is found, the one request sent by the
    compliance check has a user message that quotes the competency's name,
    its description, the content under review and every one of its
    indicators. *)
Theorem compliance_prompt_quotes_competence (self : Agent)
    (content_to_check competence_id : string) (competence : Competence) :
  find self competence_id = Some competence ->
  exists (system_message user_message : Message) (model_name : string),
    sent (client (snd (check_compliance content_to_check competence_id self)))
      = sent (client self)
        ++ [ {| messages := [system_message; user_message]; model := model_name |} ] /\
    role user_message = "user" /\
    occurs_in (name competence) (content user_message) /\
    occurs_in (description competence) (content user_message) /\
    occurs_in content_to_check (content user_message) /\
    (forall indicateur : string,
       indicateur ∈ indicateurs competence ->
       occurs_in indicateur (content user_message)).
Proof.
  intros Hfound.
  eexists _, _, _. split.
  - rewrite (FrameworkFacts.found_competence_dispatches _ _ _ _ Hfound). reflexivity.
  - split; [reflexivity|]. simpl. unfold compliance_prompt.
    split; [find_quoted|]. split; [find_quoted|]. split; [find_quoted|].
    intros indicateur Hin. find_quoted.
Qed.

Lemma compliance_prompt_quotes_competence_witness :
  find Samples.sound_agent "D1.3" = Some Samples.d13 /\
  exists (system_message user_message : Message) (model_name : string),
    sent (client (snd (check_compliance "Le théorème de Pythagore" "D1.3"
                         Samples.sound_agent)))
      = sent (client Samples.sound_agent)
        ++ [ {| messages := [system_message; user_message]; model := model_name |} ] /\
    role user_message = "user" /\
    occurs_in (name Samples.d13) (content user_message) /\
    occurs_in (description Samples.d13) (content user_message) /\
    occurs_in "Le théorème de Pythagore" (content user_message) /\
    (forall indicateur : string,
       indicateur ∈ indicateurs Samples.d13 ->
       occurs_in indicateur (content user_message)).
Proof.
  assert (H : find Samples.sound_agent "D1.3" = Some Samples.d13)
    by (vm_compute; reflexivity).
  split; [exact H|].
  exact (compliance_prompt_quotes_competence Samples.sound_agent
           "Le théorème de Pythagore" "D1.3" Samples.d13 H).
Defined.

(** X12: when the competency is found, the remediation request and the
    enrichment request name the student by the [name] entry of the record
    and, when the record has no such entry, by the words "cet élève"; the
    remediation request also quotes the identified gaps. *)
Theorem plans_name_student_or_placeholder (self : Agent)
    (student_data : gmap string string) (competence_id identified_gaps : string)
    (competence : Competence) :
  find self competence_id = Some competence ->
  exists (system_r user_r system_e user_e : Message),
    sent (client (snd (generate_remediation_plan student_data competence_id
                         identified_gaps self)))
      = sent (client self) ++ [ {| messages := [system_r; user_r]; model := "gpt-4" |} ] /\
    sent (client (snd (generate_enrichment_plan student_data competence_id self)))
      = sent (client self) ++ [ {| messages := [system_e; user_e]; model := "gpt-4" |} ] /\
    occurs_in match student_data !! "name" with
              | Some student_name => student_name
              | None => "cet élève"
              end (content user_r) /\
    occurs_in identified_gaps (content user_r) /\
    occurs_in match student_data !! "name" with
              | Some student_name => student_name
              | None => "cet élève"
              end (content user_e).
Proof.
  intros Hfound.
  eexists _, _, _, _. split; [|split].
  - unfold generate_remediation_plan. rewrite Hfound. reflexivity.
  - unfold generate_enrichment_plan. rewrite Hfound. reflexivity.
  - simpl. unfold remediation_prompt, enrichment_prompt, dict_get.
    destruct (student_data !! "name") as [student_name|];
      (split; [find_quoted|]); (split; find_quoted).
Qed.

Lemma plans_name_student_or_placeholder_witness :
  MoreSamples.bob !! "name" = None /\
  find Samples.sound_agent "D2.1" = Some Samples.d21 /\
  exists (system_r user_r system_e user_e : Message),
    sent (client (snd (generate_remediation_plan MoreSamples.bob "D2.1"
                         "lacunes" Samples.sound_agent)))
      = sent (client Samples.sound_agent)
        ++ [ {| messages := [system_r; user_r]; model := "gpt-4" |} ] /\
    sent (client (snd (generate_enrichment_plan MoreSamples.bob "D2.1"
                         Samples.sound_agent)))
      = sent (client Samples.sound_agent)
        ++ [ {| messages := [system_e; user_e]; model := "gpt-4" |} ] /\
    occurs_in match MoreSamples.bob !! "name" with
              | Some student_name => student_name
              | None => "cet élève"
              end (content user_r) /\
    occurs_in "lacunes" (content user_r) /\
    occurs_in match MoreSamples.bob !! "name" with
              | Some student_name => student_name
              | None => "cet élève"
              end (content user_e).
Proof.
  assert (H : find Samples.sound_agent "D2.1" = Some Samples.d21)
    by (vm_compute; reflexivity).
  split; [vm_compute; reflexivity|]. split; [exact H|].
  exact (plans_name_student_or_placeholder Samples.sound_agent MoreSamples.bob
           "D2.1" "lacunes" Samples.d21 H).
Defined.

End PromptFacts.

(** ** The file manager *)

Module FileManagerFacts.
Import FileManager.

Lemma drop_while_all (f : ascii -> bool) (l : list ascii) :
  Forall (fun c => f c = true) l -> drop_while f l = [].
Proof. induction 1 as [|c rest Hc _ IH]; simpl; [reflexivity | now rewrite Hc]. Qed.

(** A path without a slash has no directory part. *)
Lemma dirname_bare (file_path : string) :
  Forall (fun c => c <> "/"%char) (String.list_ascii_of_string file_path) ->
  dirname file_path = "".
Proof.
  intros Hbare. unfold dirname, through_last_sep.
  rewrite drop_while_all; [reflexivity|].
  apply Forall_forall. intros c Hc.
  apply list_elem_of_In, in_rev, list_elem_of_In in Hc.
  rewrite Forall_forall in Hbare. specialize (Hbare c Hc).
  unfold is_sep. now rewrite bool_decide_eq_false_2.
Qed.

(** X13: on a system where making the directory of the empty path raises,
    as [os.makedirs("")] does, writing or appending to a path that has no
    slash never reaches the file: both methods return their error message
    and the file system is as it was. *)
Theorem bare_file_name_never_written {World : Type} (os : OS World) (w : World)
    (file_path content : string) (e : OSError) :
  Forall (fun c => c <> "/"%char) (String.list_ascii_of_string file_path) ->
  makedirs os "" w = (Failure e, w) ->
  write_file os file_path content w = (write_error file_path e, w) /\
  append_to_file os file_path content w = (append_error file_path e, w).
Proof.
  intros Hbare Hraise.
  unfold write_file, append_to_file, st_bind.
  rewrite (dirname_bare _ Hbare), Hraise. split; reflexivity.
Qed.

Lemma bare_file_name_never_written_witness :
  write_file MoreSamples.flat_os "test_output.txt" "Ceci est un test." ∅
  = ("Erreur lors de l'écriture dans le fichier test_output.txt: [Errno 2] No such file or directory: ''",
     ∅).
Proof.
  apply (bare_file_name_never_written MoreSamples.flat_os ∅ "test_output.txt"
           "Ceci est un test."
           {| is_file_not_found := true;
              strerror := "[Errno 2] No such file or directory: ''" |}).
  - apply (bool_decide_unpack _). vm_compute. exact I.
  - reflexivity.
Defined.

Lemma drop_while_stop (f : ascii -> bool) (l1 l2 : list ascii) (c : ascii) :
  Forall (fun c' => f c' = true) l1 -> f c = false ->
  drop_while f (l1 ++ c :: l2) = c :: l2.
Proof.
  intros Hall Hc. induction Hall as [|c' rest Hc' _ IH]; simpl.
  - now rewrite Hc.
  - now rewrite Hc'.
Qed.

Lemma list_ascii_of_append (a b : string) :
  String.list_ascii_of_string (a +:+ b)
  = String.list_ascii_of_string a ++ String.list_ascii_of_string b.
Proof.
  induction a as [|ch a IH]; [reflexivity|].
  change (ch :: String.list_ascii_of_string (a +:+ b)
          = ch :: (String.list_ascii_of_string a ++ String.list_ascii_of_string b)).
  now rewrite IH.
Qed.

(** The directory part of [parent/base] when the parent does not end with a
    slash and the base has none. *)
Lemma dirname_of_child (parent base : string) (last : ascii) :
  last <> "/"%char ->
  Forall (fun c => c <> "/"%char) (String.list_ascii_of_string base) ->
  dirname ((parent +:+ String last "") +:+ "/" +:+ base) = parent +:+ String last "".
Proof.
  intros Hlast Hbase. unfold dirname, through_last_sep. cbv zeta.
  rewrite !list_ascii_of_append.
  change (String.list_ascii_of_string (String last "")) with [last].
  change (String.list_ascii_of_string "/") with ["/"%char].
  set (d := String.list_ascii_of_string parent).
  set (b := String.list_ascii_of_string base).
  assert (Hrev : rev ((d ++ [last]) ++ ["/"%char] ++ b)
                 = rev b ++ "/"%char :: last :: rev d).
  { rewrite !rev_app_distr. simpl. now rewrite <- !app_assoc. }
  rewrite Hrev. clear Hrev.
  rewrite drop_while_stop.
  - assert (Hhead : rev ("/"%char :: last :: rev d) = (d ++ [last]) ++ ["/"%char])
      by (simpl; now rewrite rev_involutive).
    rewrite Hhead.
    assert (Hnotall : forallb is_sep ((d ++ [last]) ++ ["/"%char]) = false).
    { rewrite !forallb_app. simpl. unfold is_sep at 2.
      rewrite (bool_decide_eq_false_2 _ Hlast). simpl.
      now rewrite andb_false_r. }
    rewrite Hnotall. unfold rstrip_sep.
    assert (Hl : is_sep last = false)
      by (unfold is_sep; now rewrite bool_decide_eq_false_2).
    assert (Hback : rev ((d ++ [last]) ++ ["/"%char]) = "/"%char :: last :: rev d)
      by (rewrite !rev_app_distr; reflexivity).
    assert (Hdrop : drop_while is_sep ("/"%char :: last :: rev d) = last :: rev d).
    { change (drop_while is_sep ("/"%char :: last :: rev d))
        with (if is_sep "/"%char
              then (if is_sep last then drop_while is_sep (rev d) else last :: rev d)
              else "/"%char :: last :: rev d).
      rewrite Hl. reflexivity. }
    rewrite Hback, Hdrop. simpl rev. rewrite rev_involutive.
    rewrite <- (String.string_of_list_ascii_of_string (parent +:+ String last "")).
    now rewrite list_ascii_of_append.
  - apply Forall_forall. intros c Hc.
    apply list_elem_of_In, in_rev, list_elem_of_In in Hc.
    rewrite Forall_forall in Hbase. specialize (Hbase c Hc).
    unfold is_sep. now rewrite bool_decide_eq_false_2.
  - reflexivity.
Qed.

(** X16: for a path made of a directory that does not end with a slash, a
    slash and a name without slash, writing first asks the system to make
    exactly that directory; when this fails nothing is written and the
    failure is reported, otherwise the write is attempted on the full path
    and its outcome decides the message. *)
Theorem write_file_makes_parent_first {World : Type} (os : OS World) (w : World)
    (parent base content : string) (last : ascii) :
  last <> "/"%char ->
  Forall (fun c => c <> "/"%char) (String.list_ascii_of_string base) ->
  write_file os ((parent +:+ String last "") +:+ "/" +:+ base) content w =
  match makedirs os (parent +:+ String last "") w with
  | (Failure e, w1) =>
      (write_error ((parent +:+ String last "") +:+ "/" +:+ base) e, w1)
  | (Success _, w1) =>
      match write_text os ((parent +:+ String last "") +:+ "/" +:+ base) content w1 with
      | (Success _, w2) =>
          ("Contenu écrit avec succès dans "
           +:+ ((parent +:+ String last "") +:+ "/" +:+ base) +:+ ".", w2)
      | (Failure e, w2) =>
          (write_error ((parent +:+ String last "") +:+ "/" +:+ base) e, w2)
      end
  end.
Proof.
  intros Hlast Hbase. unfold write_file, st_bind, st_ret.
  rewrite (dirname_of_child _ _ _ Hlast Hbase).
  destruct (makedirs os (parent +:+ String last "") w) as [[[]|e] w1]; [|reflexivity].
  destruct (write_text os _ content w1) as [[[]|e] w2]; reflexivity.
Qed.

Lemma write_file_makes_parent_first_witness :
  write_file MoreSamples.flat_os "data/out/test_output.txt" "Ceci est un test." ∅
  = ("Contenu écrit avec succès dans data/out/test_output.txt.",
     {[ "data/out/test_output.txt" := "Ceci est un test." ]}).
Proof.
  rewrite (write_file_makes_parent_first MoreSamples.flat_os ∅ "data/ou"
             "test_output.txt" "Ceci est un test." "t"%char).
  - vm_compute. reflexivity.
  - discriminate.
  - apply (bool_decide_unpack _). vm_compute. exact I.
Defined.

End FileManagerFacts.

(** ** The validation sequence on a class without mastery *)

Module GateMore.
Import CollectiveValidation.

(** X14: for a class in which no student holds the mastered label, the
    empty class included, and a threshold above zero, the validation
    sequence requests no assessment: nothing is sent to the service and the
    agent is unchanged. *)
Theorem no_master_no_assessment {Config : Type} (agent : Agent Config)
    (data : list (gmap string string)) (competence_id : string)
    (threshold : spec_float) (student_level : string) :
  Forall (fun student : gmap string string =>
            student !! competence_id <> Some "maîtrisé") data ->
  SFltb PyFloat.zero threshold = true ->
  main data competence_id threshold student_level agent = (Return None, agent).
Proof.
  intros Hnone Hpos. unfold main, check_collective_mastery.
  destruct (MasteryMore.ratio_without_master data competence_id Hnone)
    as (ratio & -> & [-> | [s ->]]);
    cbn [py_bind]; unfold PyFloat.ge.
  - now rewrite nothing_below_nan.
  - now rewrite (positive_above_any_zero _ _ Hpos).
Qed.

Lemma no_master_no_assessment_witness :
  main [en_cours; ∅] "D1.3" PyFloat.lit_0_9 "moyen" Samples.class_agent
  = (Return None, Samples.class_agent).
Proof.
  apply (no_master_no_assessment Samples.class_agent [en_cours; ∅] "D1.3"
           PyFloat.lit_0_9 "moyen").
  - repeat constructor; vm_compute; discriminate.
  - reflexivity.
Defined.

End GateMore.
